(** * Telegram notification dispatch loop

    A shallow embedding of [apps/web_app/telegram/notifications.py]:
    the Redis work queue, the enqueuer [send_notification], the log writer
    [_log_send_message] and the dispatch loop [notifications_broadcasting].

    The Redis list, the [TelegramLog] table and a chronological trace of
    every external call form the state; the [NotificationData] table (read
    only here) and the Telegram endpoint are parameters of the loop.
    Exceptions are results of a small state-and-error monad, so that
    [try]/[except]/[finally] are combinators with Python's semantics.
    Only [bot.send_message] can raise here: the Redis and database calls
    are taken to succeed, and a sleep lasts what it was asked to last. *)

From Stdlib Require Import List String Ascii Bool Arith ZArith QArith Lia Lqa.
From Stdlib Require Import Permutation.
Import ListNotations.

Local Open Scope string_scope.
Local Open Scope list_scope.

(** ** Python values and truthiness *)

(** The values that reach an [if x:] or [while x := ...:] test in the
    module: [None], byte/text strings (Redis replies, chat ids) and
    integers (chat ids). *)
Inductive PyVal : Type :=
| PyNone
| PyStr (s : string)
| PyInt (n : Z).

Definition truthy (v : PyVal) : bool :=
  match v with
  | PyNone => false
  | PyStr s => negb (String.eqb s "")
  | PyInt n => negb (Z.eqb n 0)
  end.

(** A notification identifier as it travels through Redis: the bytes of
    the UUID's text. *)
Definition Ident : Type := string.

(** What [rpop] hands back: [None] for an empty list, the bytes otherwise. *)
Definition reply_value (r : option Ident) : PyVal :=
  match r with
  | None => PyNone
  | Some s => PyStr s
  end.

(** ** Database rows *)

(** [database.models.NotificationData], restricted to the two columns the
    loop reads.  [wallet_id] is a text column; [telegram_id] is nullable. *)
Record NotificationData : Type := mkNotificationData {
  wallet_id : string;
  telegram_id : PyVal
}.

(** [database.models.TelegramLog] as built by [_log_send_message]. *)
Record TelegramLog : Type := mkTelegramLog {
  notification_data_id : Ident;
  is_succesfully : bool;
  message : string
}.

(** ** Exceptions *)

(** [TelegramRetryAfter] derives from [TelegramAPIError] in aiogram; the
    constructor [TelegramAPIError] stands for every API error that is not a
    retry-after, [OtherException] for anything outside that hierarchy. *)
Inductive Exn : Type :=
| TelegramRetryAfter (retry_after : Q)
| TelegramAPIError
| OtherException.

(** Outcome of one [bot.send_message] call. *)
Inductive SendResult : Type :=
| Delivered
| Failed (e : Exn).

(** ** External calls, in the order they happen *)

Inductive Event : Type :=
| EvRpop (reply : option Ident)
| EvLpush (v : Ident)
| EvGetObject (i : Ident)
| EvSendMessage (chat_id : PyVal) (text : string) (r : SendResult)
| EvSleep (d : Q)
| EvWriteToDb (row : TelegramLog).

(** ** State *)

Record State : Type := mkState {
  redis_queue : list Ident;        (* the Redis list, left end first *)
  telegram_log : list TelegramLog; (* rows written so far, oldest first *)
  trace : list Event;              (* external calls so far, oldest first *)
  sends : nat;                     (* number of send_message calls so far *)
  var_is_succesfully : bool        (* the loop's local [is_succesfully] *)
}.

(** ** The monad: state threaded, exceptions as results *)

Inductive Result (A : Type) : Type :=
| Ok (a : A)
| Raise (e : Exn).
Arguments Ok {A} a.
Arguments Raise {A} e.

Definition M (A : Type) : Type := State -> Result A * State.

Definition ret {A : Type} (a : A) : M A := fun st => (Ok a, st).

Definition bind {A B : Type} (c : M A) (k : A -> M B) : M B :=
  fun st =>
    match c st with
    | (Ok a, st') => k a st'
    | (Raise e, st') => (Raise e, st')
    end.

Definition raise {A : Type} (e : Exn) : M A := fun st => (Raise e, st).

Notation "x <- c ;; k" := (bind c (fun x => k))
  (at level 61, c at next level, right associativity).
Notation "c ;;; k" := (bind c (fun _ => k))
  (at level 61, right associativity).

(** [try: c except ...: handler e]: the handler says which exceptions it
    catches ([None] lets the exception through). *)
Definition try_except {A : Type} (c : M A) (handler : Exn -> option (M A)) : M A :=
  fun st =>
    match c st with
    | (Ok a, st') => (Ok a, st')
    | (Raise e, st') =>
        match handler e with
        | Some h => h st'
        | None => (Raise e, st')
        end
    end.

(** [try: c finally: f]: [f] runs whatever [c] did; an exception of [c]
    is raised again after [f], unless [f] itself raises. *)
Definition try_finally {A : Type} (c : M A) (f : M unit) : M A :=
  fun st =>
    match c st with
    | (Ok a, st') =>
        match f st' with
        | (Ok _, st'') => (Ok a, st'')
        | (Raise e, st'') => (Raise e, st'')
        end
    | (Raise e, st') =>
        match f st' with
        | (Ok _, st'') => (Raise e, st'')
        | (Raise e', st'') => (Raise e', st'')
        end
    end.

(** ** Primitive operations *)

Definition emit (ev : Event) (st : State) : State :=
  mkState (redis_queue st) (telegram_log st) (trace st ++ [ev])
          (sends st) (var_is_succesfully st).

(** Removing the right end of a Redis list. *)
Fixpoint rpop_list (l : list Ident) : option Ident * list Ident :=
  match l with
  | [] => (None, [])
  | x :: r =>
      match r with
      | [] => (Some x, [])
      | _ :: _ => let (v, r') := rpop_list r in (v, x :: r')
      end
  end.

(** [redis_client.rpop(TELEGRAM_NOTIFICATION_QUEUE)] *)
Definition rpop : M (option Ident) :=
  fun st =>
    let (v, q) := rpop_list (redis_queue st) in
    (Ok v, emit (EvRpop v)
             (mkState q (telegram_log st) (trace st) (sends st)
                      (var_is_succesfully st))).

(** [redis_client.lpush(TELEGRAM_NOTIFICATION_QUEUE, v)] *)
Definition lpush (v : Ident) : M unit :=
  fun st =>
    (Ok tt, emit (EvLpush v)
              (mkState (v :: redis_queue st) (telegram_log st) (trace st)
                       (sends st) (var_is_succesfully st))).

(** [asyncio.sleep(d)] *)
Definition sleep (d : Q) : M unit :=
  fun st => (Ok tt, emit (EvSleep d) st).

(** [db_connector.write_to_db(row)] *)
Definition write_to_db (row : TelegramLog) : M unit :=
  fun st =>
    (Ok tt, emit (EvWriteToDb row)
              (mkState (redis_queue st) (telegram_log st ++ [row]) (trace st)
                       (sends st) (var_is_succesfully st))).

Definition set_is_succesfully (b : bool) : M unit :=
  fun st =>
    (Ok tt, mkState (redis_queue st) (telegram_log st) (trace st) (sends st) b).

Definition get_is_succesfully : M bool :=
  fun st => (Ok (var_is_succesfully st), st).

(** ** [str.format] with keyword arguments *)

Fixpoint kw_lookup (name : string) (kwargs : list (string * string)) : option string :=
  match kwargs with
  | [] => None
  | (k, v) :: r => if String.eqb k name then Some v else kw_lookup name r
  end.

(** [field] is [None] outside a replacement field and [Some name] inside
    one, [name] being the characters read since the opening brace.  A
    stray or unclosed brace and an unknown field name give [None]
    (Python raises).  Doubled braces, conversions and format specs are
    not handled: the template has none. *)
Fixpoint format_from (field : option string) (t : string)
         (kwargs : list (string * string)) : option string :=
  match t with
  | EmptyString =>
      match field with
      | None => Some EmptyString
      | Some _ => None
      end
  | String c t' =>
      match field with
      | None =>
          if Ascii.eqb c "{"%char then format_from (Some EmptyString) t' kwargs
          else if Ascii.eqb c "}"%char then None
          else option_map (String c) (format_from None t' kwargs)
      | Some name =>
          if Ascii.eqb c "}"%char then
            match kw_lookup name kwargs with
            | Some v => option_map (String.append v) (format_from None t' kwargs)
            | None => None
            end
          else format_from (Some (String.append name (String c EmptyString))) t' kwargs
      end
  end.

Definition format (t : string) (kwargs : list (string * string)) : option string :=
  format_from None t kwargs.

Definition DEFAULT_MESSAGE_TEMPLATE : string :=
  "Warning. Your health ratio is too low for wallet_id {wallet_id}".

(** ** Reading a trace *)

(** Time spent asleep from the start of [evs] up to the first queue
    operation in it. *)
Fixpoint suspension_before_queue_op (evs : list Event) : Q :=
  match evs with
  | [] => 0
  | EvSleep d :: r => d + suspension_before_queue_op r
  | EvRpop _ :: _ => 0
  | EvLpush _ :: _ => 0
  | _ :: r => suspension_before_queue_op r
  end.

Definition is_lpush_of (v : Ident) (ev : Event) : bool :=
  match ev with
  | EvLpush w => String.eqb v w
  | _ => false
  end.

Definition is_rpop (ev : Event) : bool :=
  match ev with
  | EvRpop _ => true
  | _ => false
  end.

Definition is_sleep (ev : Event) : bool :=
  match ev with
  | EvSleep _ => true
  | _ => false
  end.

Definition count_events (p : Event -> bool) (evs : list Event) : nat :=
  List.length (List.filter p evs).

Definition is_send (ev : Event) : bool :=
  match ev with
  | EvSendMessage _ _ _ => true
  | _ => false
  end.

Definition is_lpush (ev : Event) : bool :=
  match ev with
  | EvLpush _ => true
  | _ => false
  end.

(** A pop that took a value off the list. *)
Definition is_take (ev : Event) : bool :=
  match ev with
  | EvRpop (Some _) => true
  | _ => false
  end.

(** The rows the calls of a trace wrote, oldest first. *)
Fixpoint written (evs : list Event) : list TelegramLog :=
  match evs with
  | [] => []
  | EvWriteToDb row :: r => row :: written r
  | _ :: r => written r
  end.

(** ** A small world for concrete runs *)

Definition alice : NotificationData :=
  mkNotificationData "0xA11CE" (PyStr "424242").

Definition nobody : NotificationData :=
  mkNotificationData "0xB0B" PyNone.

Definition sample_table (i : Ident) : option NotificationData :=
  if String.eqb i "id-alice" then Some alice
  else if String.eqb i "id-nobody" then Some nobody
  else None.

Definition always (r : SendResult) : nat -> PyVal -> string -> SendResult :=
  fun _ _ _ => r.

Definition initial (q : list Ident) : State := mkState q [] [] 0 false.

(** The state right after [rpop] returned [id] and left [q] in the list. *)
Definition popped (st : State) (q : list Ident) (id : Ident) : State :=
  mkState q (telegram_log st) (trace st ++ [EvRpop (Some id)])
          (sends st) (var_is_succesfully st).

(** ** The module's functions *)

Section Dispatch.

(** [db_connector.get_object(NotificationData, ident)] on the table's
    current content. *)
Variable notification_table : Ident -> option NotificationData.

(** The Telegram endpoint: what the [n]-th call (counting from 0) of
    [bot.send_message(chat_id, text)] does. *)
Variable telegram : nat -> PyVal -> string -> SendResult.

Definition get_object (i : Ident) : M (option NotificationData) :=
  fun st => (Ok (notification_table i), emit (EvGetObject i) st).

Definition send_message (chat_id : PyVal) (text : string) : M unit :=
  fun st =>
    let r := telegram (sends st) chat_id text in
    let st' := emit (EvSendMessage chat_id text r)
                 (mkState (redis_queue st) (telegram_log st) (trace st)
                          (S (sends st)) (var_is_succesfully st)) in
    match r with
    | Delivered => (Ok tt, st')
    | Failed e => (Raise e, st')
    end.

Definition send_notification (notification_id : Ident) : M unit :=
  lpush notification_id.

Definition _log_send_message (notification_id : Ident) (text : string)
           (is_succesfully : bool) : M unit :=
  write_to_db (mkTelegramLog notification_id is_succesfully text).

(** How one trip through the [while] statement ends. *)
Inductive Flow : Type :=
| FlowExit       (* the condition was falsy *)
| FlowContinue   (* the [continue] statement *)
| FlowBreak      (* the [break] statement *)
| FlowNext.      (* the end of the body *)

(** The body of the [while] loop, [notification_id] being the value the
    condition bound. *)
Definition loop_body (is_infinity : bool) (sleep_time : Q)
           (notification_id : Ident) : M Flow :=
  notification <- get_object notification_id ;;
  match notification with
  | None => ret FlowContinue
  | Some notification =>
      set_is_succesfully false ;;;
      text <- match format DEFAULT_MESSAGE_TEMPLATE
                      [("wallet_id", wallet_id notification)] with
              | Some text => ret text
              | None => raise OtherException
              end ;;
      try_finally
        (try_except
           (if truthy (telegram_id notification) then
              send_message (telegram_id notification) text ;;;
              set_is_succesfully true
            else ret tt)
           (fun e =>
              match e with
              | TelegramRetryAfter retry_after =>
                  Some (sleep retry_after ;;; lpush notification_id)
              | TelegramAPIError => Some (ret tt)
              | OtherException => None
              end))
        (ok <- get_is_succesfully ;;
         _log_send_message notification_id text ok) ;;;
      if negb is_infinity then ret FlowBreak
      else sleep sleep_time ;;; ret FlowNext
  end.

(** One evaluation of the [while] condition, followed by the body when the
    popped value is truthy. *)
Definition iteration (is_infinity : bool) (sleep_time : Q) : M Flow :=
  reply <- rpop ;;
  if truthy (reply_value reply) then
    match reply with
    | Some notification_id => loop_body is_infinity sleep_time notification_id
    | None => ret FlowExit
    end
  else ret FlowExit.

(** How a call of [notifications_broadcasting] ends within the fuel. *)
Inductive Completion : Type :=
| Returned
| OutOfFuel.

(** [fuel] bounds the number of evaluations of the [while] condition. *)
Fixpoint notifications_broadcasting (fuel : nat) (is_infinity : bool)
         (sleep_time : Q) : M Completion :=
  match fuel with
  | O => ret OutOfFuel
  | S fuel' =>
      flow <- iteration is_infinity sleep_time ;;
      match flow with
      | FlowExit | FlowBreak => ret Returned
      | FlowContinue | FlowNext =>
          notifications_broadcasting fuel' is_infinity sleep_time
      end
  end.

(** ** Vocabulary of the statements *)

(** The text the template gives for a record. *)
Definition rendered_text (n : NotificationData) : string :=
  "Warning. Your health ratio is too low for wallet_id " ++ wallet_id n.

(** Whether the delivery step of an iteration started in [st] on record
    [n] ends with the message delivered. *)
Definition delivery_succeeds (st : State) (n : NotificationData) : bool :=
  truthy (telegram_id n) &&
  match telegram (sends st) (telegram_id n) (rendered_text n) with
  | Delivered => true
  | Failed _ => false
  end.

(** The result of a body that ran to its end from [s]: queue [q], rows
    [rows] written, calls [evs] made, [n] sends so far, local flag [b];
    then the [break] or the sleep. *)
Definition after_body (inf : bool) (sl : Q) (s : State) (q : list Ident)
           (rows : list TelegramLog) (evs : list Event) (n : nat) (b : bool)
  : Result Flow * State :=
  (Ok (if inf then FlowNext else FlowBreak),
   mkState q (telegram_log s ++ rows)
           (trace s ++ evs ++ (if inf then [EvSleep sl] else []))
           n b).


(** An identifier the loop will try to deliver: truthy bytes, a record,
    a truthy [telegram_id]. *)
Definition deliverable (id : Ident) : bool :=
  truthy (PyStr id) &&
  match notification_table id with
  | Some n => truthy (telegram_id n)
  | None => false
  end.

(** An identifier the loop skips: truthy bytes, no record. *)
Definition stale (id : Ident) : bool :=
  truthy (PyStr id) &&
  match notification_table id with
  | Some _ => false
  | None => true
  end.

(** The row of an attempt on [id] with flag [ok]; none without a record. *)
Definition row_for (ok : bool) (id : Ident) : list TelegramLog :=
  match notification_table id with
  | Some n => [mkTelegramLog id ok (rendered_text n)]
  | None => []
  end.

(** The calls by which a stale identifier shows in the trace. *)
Definition skip_events (id : Ident) : list Event :=
  [EvRpop (Some id); EvGetObject id].

(** A [send_message] call made for some record: to its truthy
    [telegram_id], with its rendered text. *)
Definition send_of_record (ev : Event) : Prop :=
  match ev with
  | EvSendMessage chat text _ =>
      truthy chat = true /\
      exists id n, notification_table id = Some n /\
                   chat = telegram_id n /\ text = rendered_text n
  | _ => True
  end.

(** A row written for an identifier that has a record, with the text
    rendered from that record. *)
Definition row_of_record (row : TelegramLog) : Prop :=
  exists n, notification_table (notification_data_id row) = Some n /\
            message row = rendered_text n.

(** What a stretch [evs] of the loop's trace always satisfies. *)
Definition accounted (evs : list Event) : Prop :=
  (count_events is_lpush evs <= count_events is_send evs)%nat /\
  (count_events is_send evs <= List.length (written evs))%nat /\
  (List.length (written evs) <= count_events is_take evs)%nat /\
  Forall send_of_record evs /\
  Forall row_of_record (written evs).

(** How a stretch [evs] of calls takes the state from [st] to [st']. *)
Definition advances (st st' : State) (evs : list Event) : Prop :=
  trace st' = trace st ++ evs /\
  telegram_log st' = telegram_log st ++ written evs /\
  sends st' = (sends st + count_events is_send evs)%nat /\
  (List.length (redis_queue st') + count_events is_take evs
   = List.length (redis_queue st) + count_events is_lpush evs)%nat.

(** * Properties *)

(** ** The queue *)

Lemma rpop_list_snoc (q : list Ident) (x : Ident) :
  rpop_list (q ++ [x]) = (Some x, q).
Proof.
  induction q as [|y q IH]; simpl; [reflexivity|].
  rewrite IH. destruct q; reflexivity.
Qed.

(** ** The template *)

Lemma append_empty_r (s : string) : (s ++ "")%string = s.
Proof. induction s as [|c s IH]; simpl; [|rewrite IH]; reflexivity. Qed.

Lemma format_default (w : string) :
  format DEFAULT_MESSAGE_TEMPLATE [("wallet_id", w)]
  = Some ("Warning. Your health ratio is too low for wallet_id " ++ w)%string.
Proof.
  unfold format, DEFAULT_MESSAGE_TEMPLATE. cbn.
  rewrite append_empty_r. reflexivity.
Qed.

(** ** Unfolding the loop *)

Lemma iteration_popped (inf : bool) (sl : Q) (st : State)
      (q : list Ident) (id : Ident) :
  redis_queue st = q ++ [id] ->
  truthy (PyStr id) = true ->
  iteration inf sl st = loop_body inf sl id (popped st q id).
Proof.
  intros Hq Hid. unfold iteration, bind, rpop.
  rewrite Hq, rpop_list_snoc. cbn [reply_value]. rewrite Hid. reflexivity.
Qed.

Lemma loop_unfold (fuel : nat) (inf : bool) (sl : Q) (st : State) :
  notifications_broadcasting (S fuel) inf sl st =
  match iteration inf sl st with
  | (Ok FlowExit, st') | (Ok FlowBreak, st') => (Ok Returned, st')
  | (Ok FlowContinue, st') | (Ok FlowNext, st') =>
      notifications_broadcasting fuel inf sl st'
  | (Raise e, st') => (Raise e, st')
  end.
Proof.
  cbn [notifications_broadcasting]. unfold bind.
  destruct (iteration inf sl st) as [[[]|e] st']; reflexivity.
Qed.

(** ** The body, case by case *)

Lemma body_stale (inf : bool) (sl : Q) (s : State) (id : Ident) :
  notification_table id = None ->
  loop_body inf sl id s = (Ok FlowContinue, emit (EvGetObject id) s).
Proof.
  intros Ht. unfold loop_body, bind, get_object. rewrite Ht. reflexivity.
Qed.

Section Resolved.

Variables (inf : bool) (sl : Q) (s : State) (id : Ident) (n : NotificationData).
Hypothesis Hrecord : notification_table id = Some n.

Let text := rendered_text n.
Let chat := telegram_id n.
Let row (ok : bool) := mkTelegramLog id ok text.

Ltac run_body :=
  unfold loop_body, bind, get_object, after_body;
  rewrite Hrecord; cbn [set_is_succesfully emit];
  rewrite format_default; fold (rendered_text n); fold text; fold chat;
  unfold try_finally, try_except, ret.

Ltac finish_body :=
  destruct inf;
  cbv -[app String.append rendered_text];
  repeat rewrite <- app_assoc; reflexivity.

Lemma body_not_deliverable :
  truthy chat = false ->
  loop_body inf sl id s =
  after_body inf sl s (redis_queue s) [row false]
             [EvGetObject id; EvWriteToDb (row false)] (sends s) false.
Proof.
  intros Hf. run_body. rewrite Hf. finish_body.
Qed.

Lemma body_delivered :
  truthy chat = true ->
  telegram (sends s) chat text = Delivered ->
  loop_body inf sl id s =
  after_body inf sl s (redis_queue s) [row true]
             [EvGetObject id; EvSendMessage chat text Delivered;
              EvWriteToDb (row true)] (S (sends s)) true.
Proof.
  intros Ht Hd. run_body. rewrite Ht.
  unfold bind, send_message.
  cbn [sends redis_queue telegram_log trace var_is_succesfully emit].
  rewrite Hd. finish_body.
Qed.

Lemma body_throttled (d : Q) :
  truthy chat = true ->
  telegram (sends s) chat text = Failed (TelegramRetryAfter d) ->
  loop_body inf sl id s =
  after_body inf sl s (id :: redis_queue s) [row false]
             [EvGetObject id;
              EvSendMessage chat text (Failed (TelegramRetryAfter d));
              EvSleep d; EvLpush id; EvWriteToDb (row false)]
             (S (sends s)) false.
Proof.
  intros Ht Hd. run_body. rewrite Ht.
  unfold bind, send_message.
  cbn [sends redis_queue telegram_log trace var_is_succesfully emit].
  rewrite Hd. finish_body.
Qed.

Lemma body_api_error :
  truthy chat = true ->
  telegram (sends s) chat text = Failed TelegramAPIError ->
  loop_body inf sl id s =
  after_body inf sl s (redis_queue s) [row false]
             [EvGetObject id; EvSendMessage chat text (Failed TelegramAPIError);
              EvWriteToDb (row false)] (S (sends s)) false.
Proof.
  intros Ht Hd. run_body. rewrite Ht.
  unfold bind, send_message.
  cbn [sends redis_queue telegram_log trace var_is_succesfully emit].
  rewrite Hd. finish_body.
Qed.

Lemma body_unexpected :
  truthy chat = true ->
  telegram (sends s) chat text = Failed OtherException ->
  loop_body inf sl id s =
  (Raise OtherException,
   mkState (redis_queue s) (telegram_log s ++ [row false])
           (trace s ++ [EvGetObject id;
                        EvSendMessage chat text (Failed OtherException);
                        EvWriteToDb (row false)])
           (S (sends s)) false).
Proof.
  intros Ht Hd. run_body. rewrite Ht.
  unfold bind, send_message.
  cbn [sends redis_queue telegram_log trace var_is_succesfully emit].
  rewrite Hd.
  cbv -[app String.append rendered_text].
  repeat rewrite <- app_assoc. reflexivity.
Qed.

End Resolved.

(** ** The iteration on a popped identifier that resolves to a record *)

Section Popped.

Variables (inf : bool) (sl : Q) (st : State) (q : list Ident) (id : Ident)
          (n : NotificationData).
Hypothesis Hqueue : redis_queue st = q ++ [id].
Hypothesis Hident : truthy (PyStr id) = true.
Hypothesis Hrecord : notification_table id = Some n.

Let text := rendered_text n.
Let chat := telegram_id n.
Let row (ok : bool) := mkTelegramLog id ok text.

Lemma iteration_not_deliverable :
  truthy chat = false ->
  iteration inf sl st =
  after_body inf sl (popped st q id) q [row false]
             [EvGetObject id; EvWriteToDb (row false)] (sends st) false.
Proof.
  intros Hf. rewrite (iteration_popped inf sl st q id Hqueue Hident).
  exact (body_not_deliverable inf sl (popped st q id) id n Hrecord Hf).
Qed.

Lemma iteration_delivered :
  truthy chat = true ->
  telegram (sends st) chat text = Delivered ->
  iteration inf sl st =
  after_body inf sl (popped st q id) q [row true]
             [EvGetObject id; EvSendMessage chat text Delivered;
              EvWriteToDb (row true)] (S (sends st)) true.
Proof.
  intros Ht Hd. rewrite (iteration_popped inf sl st q id Hqueue Hident).
  exact (body_delivered inf sl (popped st q id) id n Hrecord Ht Hd).
Qed.

Lemma iteration_throttled (d : Q) :
  truthy chat = true ->
  telegram (sends st) chat text = Failed (TelegramRetryAfter d) ->
  iteration inf sl st =
  after_body inf sl (popped st q id) (id :: q) [row false]
             [EvGetObject id;
              EvSendMessage chat text (Failed (TelegramRetryAfter d));
              EvSleep d; EvLpush id; EvWriteToDb (row false)]
             (S (sends st)) false.
Proof.
  intros Ht Hd. rewrite (iteration_popped inf sl st q id Hqueue Hident).
  exact (body_throttled inf sl (popped st q id) id n Hrecord d Ht Hd).
Qed.

Lemma iteration_api_error :
  truthy chat = true ->
  telegram (sends st) chat text = Failed TelegramAPIError ->
  iteration inf sl st =
  after_body inf sl (popped st q id) q [row false]
             [EvGetObject id; EvSendMessage chat text (Failed TelegramAPIError);
              EvWriteToDb (row false)] (S (sends st)) false.
Proof.
  intros Ht Hd. rewrite (iteration_popped inf sl st q id Hqueue Hident).
  exact (body_api_error inf sl (popped st q id) id n Hrecord Ht Hd).
Qed.

Lemma iteration_unexpected :
  truthy chat = true ->
  telegram (sends st) chat text = Failed OtherException ->
  iteration inf sl st =
  (Raise OtherException,
   mkState q (telegram_log st ++ [row false])
           (trace st ++ [EvRpop (Some id); EvGetObject id;
                         EvSendMessage chat text (Failed OtherException);
                         EvWriteToDb (row false)])
           (S (sends st)) false).
Proof.
  intros Ht Hd. rewrite (iteration_popped inf sl st q id Hqueue Hident).
  rewrite (body_unexpected inf sl (popped st q id) id n Hrecord Ht Hd).
  unfold popped. cbn [redis_queue telegram_log trace sends].
  rewrite <- app_assoc. reflexivity.
Qed.

(** Unless the delivery raises outside the Telegram API errors, the body
    runs to its end. *)
Lemma iteration_runs_to_end :
  (truthy chat = true ->
   telegram (sends st) chat text <> Failed OtherException) ->
  exists q' evs k b,
    iteration inf sl st =
    after_body inf sl (popped st q id) q'
               [row (delivery_succeeds st n)] evs k b.
Proof.
  intros Hno. unfold delivery_succeeds. fold chat. fold text.
  destruct (truthy chat) eqn:Ht.
  - destruct (telegram (sends st) chat text) as [|[d| |]] eqn:Hd.
    + do 4 eexists. exact (iteration_delivered Ht Hd).
    + do 4 eexists. exact (iteration_throttled d Ht Hd).
    + do 4 eexists. exact (iteration_api_error Ht Hd).
    + exfalso. exact (Hno eq_refl eq_refl).
  - do 4 eexists. exact (iteration_not_deliverable Ht).
Qed.

End Popped.

(** ** From one iteration to the loop *)

Lemma loop_after_body (fuel : nat) (inf : bool) (sl : Q) (st s : State)
      (q : list Ident) (rows : list TelegramLog) (evs : list Event)
      (n : nat) (b : bool) :
  iteration inf sl st = after_body inf sl s q rows evs n b ->
  notifications_broadcasting (S fuel) inf sl st =
  if inf then notifications_broadcasting fuel inf sl (snd (iteration inf sl st))
  else (Ok Returned, snd (iteration inf sl st)).
Proof.
  intros H. rewrite loop_unfold, H. unfold after_body.
  destruct inf; reflexivity.
Qed.

Lemma count_events_app (p : Event -> bool) (l1 l2 : list Event) :
  count_events p (l1 ++ l2) = (count_events p l1 + count_events p l2)%nat.
Proof.
  unfold count_events. rewrite filter_app, length_app. reflexivity.
Qed.

(** The enqueuer and the requeue use the same end of the list, and a pop
    takes from the other end: first pushed, first popped. *)
Lemma send_notification_pushes_left (v : Ident) (st : State) :
  redis_queue (snd (send_notification v st)) = v :: redis_queue st.
Proof. reflexivity. Qed.

Lemma rpop_after_lpush (v x : Ident) (q : list Ident) :
  rpop_list (v :: q ++ [x]) = (Some x, v :: q).
Proof. exact (rpop_list_snoc (v :: q) x). Qed.

(** ** The dispatch loop, claim by claim *)

(** C1, as the code has it: in Continuous mode a pop that finds the queue
    empty ends the call at once.  The trace gains that one pop and nothing
    else: no sleep, no second pop. *)
Theorem continuous_mode_returns_on_empty_queue
        (fuel : nat) (sleep_time : Q) (log : list TelegramLog)
        (tr : list Event) (n : nat) (b : bool) :
  notifications_broadcasting (S fuel) true sleep_time (mkState [] log tr n b)
  = (Ok Returned, mkState [] log (tr ++ [EvRpop None]) n b).
Proof. reflexivity. Qed.

(** C2, amended: an iteration whose identifier resolves to a record, and
    whose delivery raises nothing outside the Telegram API errors, ends the
    call in SinglePass mode after that one pop, and in Continuous mode ends
    with a sleep of the configured interval before the next iteration.  An
    iteration whose identifier resolves to no record goes on to the next
    iteration in both modes, without a sleep. *)
Theorem resolved_iteration_breaks_or_sleeps
        (sl : Q) (st : State) (q : list Ident) (id : Ident) :
  redis_queue st = q ++ [id] ->
  truthy (PyStr id) = true ->
  (forall n : NotificationData,
      notification_table id = Some n ->
      (truthy (telegram_id n) = true ->
       telegram (sends st) (telegram_id n) (rendered_text n)
       <> Failed OtherException) ->
      (fst (iteration false sl st) = Ok FlowBreak /\
       count_events is_rpop (trace (snd (iteration false sl st)))
       = S (count_events is_rpop (trace st)) /\
       forall fuel, notifications_broadcasting (S fuel) false sl st
                    = (Ok Returned, snd (iteration false sl st))) /\
      (fst (iteration true sl st) = Ok FlowNext /\
       (exists evs, trace (snd (iteration true sl st))
                    = trace st ++ evs ++ [EvSleep sl]) /\
       forall fuel, notifications_broadcasting (S fuel) true sl st
                    = notifications_broadcasting fuel true sl
                        (snd (iteration true sl st)))) /\
  (notification_table id = None ->
   forall inf : bool,
     fst (iteration inf sl st) = Ok FlowContinue /\
     count_events is_sleep (trace (snd (iteration inf sl st)))
     = count_events is_sleep (trace st) /\
     forall fuel, notifications_broadcasting (S fuel) inf sl st
                  = notifications_broadcasting fuel inf sl
                      (snd (iteration inf sl st))).
Proof.
  intros Hq Hid. split.
  - intros n Hrec Hno. split.
    + destruct (iteration_runs_to_end false sl st q id n Hq Hid Hrec Hno)
        as (q' & evs & k & b & Hit).
      split; [rewrite Hit; reflexivity|]. split.
      * destruct (truthy (telegram_id n)) eqn:Ht.
        -- destruct (telegram (sends st) (telegram_id n) (rendered_text n))
             as [|[d| |]] eqn:Hd.
           ++ rewrite (iteration_delivered false sl st q id n Hq Hid Hrec Ht Hd).
              unfold after_body, popped. cbn [snd trace].
              rewrite !count_events_app. cbn. lia.
           ++ rewrite (iteration_throttled false sl st q id n Hq Hid Hrec d Ht Hd).
              unfold after_body, popped. cbn [snd trace].
              rewrite !count_events_app. cbn. lia.
           ++ rewrite (iteration_api_error false sl st q id n Hq Hid Hrec Ht Hd).
              unfold after_body, popped. cbn [snd trace].
              rewrite !count_events_app. cbn. lia.
           ++ exfalso. exact (Hno eq_refl eq_refl).
        -- rewrite (iteration_not_deliverable false sl st q id n Hq Hid Hrec Ht).
           unfold after_body, popped. cbn [snd trace].
           rewrite !count_events_app. cbn. lia.
      * intros fuel. exact (loop_after_body fuel false sl st _ _ _ _ _ _ Hit).
    + destruct (iteration_runs_to_end true sl st q id n Hq Hid Hrec Hno)
        as (q' & evs & k & b & Hit).
      split; [rewrite Hit; reflexivity|]. split.
      * exists (EvRpop (Some id) :: evs). rewrite Hit.
        unfold after_body, popped. cbn [snd trace].
        rewrite <- app_assoc. reflexivity.
      * intros fuel. exact (loop_after_body fuel true sl st _ _ _ _ _ _ Hit).
  - intros Hnone inf.
    assert (Hit : iteration inf sl st
                  = (Ok FlowContinue, emit (EvGetObject id) (popped st q id))).
    { rewrite (iteration_popped inf sl st q id Hq Hid).
      apply body_stale. exact Hnone. }
    split; [rewrite Hit; reflexivity|]. split.
    + rewrite Hit. unfold emit, popped. cbn [snd trace].
      rewrite !count_events_app. cbn. lia.
    + intros fuel. rewrite loop_unfold, Hit. reflexivity.
Qed.

(** C3: when the delivery of a popped identifier is answered with a
    retry-after of [d], the loop sleeps [d] before it touches the queue
    again, then pushes the identifier once, on the end of the list where
    the enqueuer pushes, and one row with success false is written. *)
Theorem throttled_identifier_requeued
        (inf : bool) (sl : Q) (st : State) (q : list Ident) (id : Ident)
        (n : NotificationData) (d : Q) :
  redis_queue st = q ++ [id] ->
  truthy (PyStr id) = true ->
  notification_table id = Some n ->
  truthy (telegram_id n) = true ->
  telegram (sends st) (telegram_id n) (rendered_text n)
  = Failed (TelegramRetryAfter d) ->
  let st' := snd (iteration inf sl st) in
  let after_send :=
    [EvSleep d; EvLpush id;
     EvWriteToDb (mkTelegramLog id false (rendered_text n))]
    ++ (if inf then [EvSleep sl] else []) in
  fst (iteration inf sl st) = Ok (if inf then FlowNext else FlowBreak) /\
  trace st' = trace st
              ++ [EvRpop (Some id); EvGetObject id;
                  EvSendMessage (telegram_id n) (rendered_text n)
                                (Failed (TelegramRetryAfter d))]
              ++ after_send /\
  d <= suspension_before_queue_op after_send /\
  count_events (is_lpush_of id) after_send = 1%nat /\
  redis_queue st' = id :: q /\
  redis_queue st' = redis_queue (snd (send_notification id (popped st q id))) /\
  telegram_log st'
  = telegram_log st ++ [mkTelegramLog id false (rendered_text n)].
Proof.
  intros Hq Hid Hrec Ht Hd st' after_send. subst st' after_send.
  rewrite (iteration_throttled inf sl st q id n Hq Hid Hrec d Ht Hd).
  unfold after_body, popped. cbn [fst snd trace redis_queue telegram_log].
  repeat split.
  - rewrite <- app_assoc. reflexivity.
  - cbn [app suspension_before_queue_op]. lra.
  - unfold count_events. cbn [app filter is_lpush_of].
    rewrite String.eqb_refl. destruct inf; reflexivity.
Qed.

(** C4: a popped identifier that resolves to no record writes no row and
    is not pushed back: the queue is left without it, the log is
    unchanged, and the loop goes on to its next iteration. *)
Theorem stale_identifier_dropped
        (inf : bool) (sl : Q) (st : State) (q : list Ident) (id : Ident) :
  redis_queue st = q ++ [id] ->
  truthy (PyStr id) = true ->
  notification_table id = None ->
  iteration inf sl st
  = (Ok FlowContinue,
     mkState q (telegram_log st)
             (trace st ++ [EvRpop (Some id); EvGetObject id])
             (sends st) (var_is_succesfully st)) /\
  forall fuel,
    notifications_broadcasting (S fuel) inf sl st
    = notifications_broadcasting fuel inf sl
        (mkState q (telegram_log st)
                 (trace st ++ [EvRpop (Some id); EvGetObject id])
                 (sends st) (var_is_succesfully st)).
Proof.
  intros Hq Hid Hnone.
  assert (Hit : iteration inf sl st
                = (Ok FlowContinue,
                   mkState q (telegram_log st)
                           (trace st ++ [EvRpop (Some id); EvGetObject id])
                           (sends st) (var_is_succesfully st))).
  { rewrite (iteration_popped inf sl st q id Hq Hid).
    rewrite (body_stale inf sl _ id Hnone).
    unfold emit, popped. cbn [redis_queue telegram_log trace sends
                              var_is_succesfully].
    rewrite <- app_assoc. reflexivity. }
  split; [exact Hit|].
  intros fuel. rewrite loop_unfold, Hit. reflexivity.
Qed.

(** C5: an iteration on a popped identifier that resolves to a record
    writes exactly one row, holding the identifier, the rendered text and
    the success flag, whatever the delivery did; this holds as well when
    the delivery raises outside the Telegram API errors, in which case the
    row is written and the exception leaves the loop.  Only an identifier
    without a record writes no row. *)
Theorem resolved_identifier_logged_once
        (inf : bool) (sl : Q) (st : State) (q : list Ident) (id : Ident) :
  redis_queue st = q ++ [id] ->
  truthy (PyStr id) = true ->
  telegram_log (snd (iteration inf sl st))
  = telegram_log st
    ++ match notification_table id with
       | Some n => [mkTelegramLog id (delivery_succeeds st n) (rendered_text n)]
       | None => []
       end
  /\
  forall n : NotificationData,
    notification_table id = Some n ->
    truthy (telegram_id n) = true ->
    telegram (sends st) (telegram_id n) (rendered_text n)
    = Failed OtherException ->
    fst (iteration inf sl st) = Raise OtherException /\
    telegram_log (snd (iteration inf sl st))
    = telegram_log st ++ [mkTelegramLog id false (rendered_text n)].
Proof.
  intros Hq Hid. split.
  - destruct (notification_table id) as [n|] eqn:Hrec.
    + destruct (truthy (telegram_id n)) eqn:Ht.
      * destruct (telegram (sends st) (telegram_id n) (rendered_text n))
          as [|[d| |]] eqn:Hd.
        -- destruct (iteration_runs_to_end inf sl st q id n Hq Hid Hrec)
             as (q' & evs & k & b & Hit);
             [rewrite Hd; discriminate|rewrite Hit; reflexivity].
        -- destruct (iteration_runs_to_end inf sl st q id n Hq Hid Hrec)
             as (q' & evs & k & b & Hit);
             [rewrite Hd; discriminate|rewrite Hit; reflexivity].
        -- destruct (iteration_runs_to_end inf sl st q id n Hq Hid Hrec)
             as (q' & evs & k & b & Hit);
             [rewrite Hd; discriminate|rewrite Hit; reflexivity].
        -- rewrite (iteration_unexpected inf sl st q id n Hq Hid Hrec Ht Hd).
           unfold delivery_succeeds. rewrite Ht, Hd. reflexivity.
      * destruct (iteration_runs_to_end inf sl st q id n Hq Hid Hrec)
          as (q' & evs & k & b & Hit);
          [rewrite Ht; discriminate|rewrite Hit; reflexivity].
    + rewrite (iteration_popped inf sl st q id Hq Hid).
      rewrite (body_stale inf sl _ id Hrec). cbn. rewrite app_nil_r.
      reflexivity.
  - intros n Hrec Ht Hd.
    rewrite (iteration_unexpected inf sl st q id n Hq Hid Hrec Ht Hd).
    split; reflexivity.
Qed.

(** C6: a delivery that fails with a Telegram API error other than a
    retry-after is swallowed: the iteration ends normally, one row with
    success false is written, nothing is pushed back, and the loop returns
    normally (SinglePass) or goes on to its next iteration (Continuous). *)
Theorem api_error_swallowed
        (inf : bool) (sl : Q) (st : State) (q : list Ident) (id : Ident)
        (n : NotificationData) :
  redis_queue st = q ++ [id] ->
  truthy (PyStr id) = true ->
  notification_table id = Some n ->
  truthy (telegram_id n) = true ->
  telegram (sends st) (telegram_id n) (rendered_text n)
  = Failed TelegramAPIError ->
  let st' := snd (iteration inf sl st) in
  fst (iteration inf sl st) = Ok (if inf then FlowNext else FlowBreak) /\
  telegram_log st'
  = telegram_log st ++ [mkTelegramLog id false (rendered_text n)] /\
  redis_queue st' = q /\
  count_events (is_lpush_of id) (trace st')
  = count_events (is_lpush_of id) (trace st) /\
  forall fuel,
    notifications_broadcasting (S fuel) inf sl st
    = if inf then notifications_broadcasting fuel inf sl st'
      else (Ok Returned, st').
Proof.
  intros Hq Hid Hrec Ht Hd st'. subst st'.
  pose proof (iteration_api_error inf sl st q id n Hq Hid Hrec Ht Hd) as Hit.
  split; [rewrite Hit; reflexivity|].
  split; [rewrite Hit; reflexivity|].
  split; [rewrite Hit; reflexivity|].
  split.
  - rewrite Hit. unfold after_body, popped. cbn [snd trace].
    rewrite !count_events_app. destruct inf; cbn; lia.
  - intros fuel. exact (loop_after_body fuel inf sl st _ _ _ _ _ _ Hit).
Qed.

(** C7: for a popped identifier whose record has no destination
    ([telegram_id] is [None]) no delivery is attempted, exactly one row
    with success false is written, nothing is pushed back, and the
    iteration ends normally: no exception is involved. *)
Theorem record_without_destination
        (inf : bool) (sl : Q) (st : State) (q : list Ident) (id : Ident)
        (n : NotificationData) :
  redis_queue st = q ++ [id] ->
  truthy (PyStr id) = true ->
  notification_table id = Some n ->
  telegram_id n = PyNone ->
  iteration inf sl st
  = (Ok (if inf then FlowNext else FlowBreak),
     mkState q
             (telegram_log st ++ [mkTelegramLog id false (rendered_text n)])
             (trace st
              ++ [EvRpop (Some id); EvGetObject id;
                  EvWriteToDb (mkTelegramLog id false (rendered_text n))]
              ++ (if inf then [EvSleep sl] else []))
             (sends st) false).
Proof.
  intros Hq Hid Hrec Hnone.
  assert (Hf : truthy (telegram_id n) = false) by (rewrite Hnone; reflexivity).
  rewrite (iteration_not_deliverable inf sl st q id n Hq Hid Hrec Hf).
  unfold after_body, popped. cbn [trace telegram_log].
  rewrite <- app_assoc. reflexivity.
Qed.

(** C8: a delivery that succeeds writes exactly one row with success true
    whose text is the template [DEFAULT_MESSAGE_TEMPLATE] formatted with
    the record's wallet identifier, and the identifier is not pushed
    back. *)
Theorem delivered_identifier_logged_success
        (inf : bool) (sl : Q) (st : State) (q : list Ident) (id : Ident)
        (n : NotificationData) :
  redis_queue st = q ++ [id] ->
  truthy (PyStr id) = true ->
  notification_table id = Some n ->
  truthy (telegram_id n) = true ->
  telegram (sends st) (telegram_id n) (rendered_text n) = Delivered ->
  let st' := snd (iteration inf sl st) in
  exists text : string,
    format DEFAULT_MESSAGE_TEMPLATE [("wallet_id", wallet_id n)] = Some text /\
    text = ("Warning. Your health ratio is too low for wallet_id "
            ++ wallet_id n)%string /\
    fst (iteration inf sl st) = Ok (if inf then FlowNext else FlowBreak) /\
    telegram_log st' = telegram_log st ++ [mkTelegramLog id true text] /\
    redis_queue st' = q /\
    count_events (is_lpush_of id) (trace st')
    = count_events (is_lpush_of id) (trace st).
Proof.
  intros Hq Hid Hrec Ht Hd st'. subst st'.
  exists (rendered_text n).
  split; [apply format_default|]. split; [reflexivity|].
  pose proof (iteration_delivered inf sl st q id n Hq Hid Hrec Ht Hd) as Hit.
  split; [rewrite Hit; reflexivity|].
  split; [rewrite Hit; reflexivity|].
  split; [rewrite Hit; reflexivity|].
  rewrite Hit. unfold after_body, popped. cbn [snd trace].
  rewrite !count_events_app. destruct inf; cbn; lia.
Qed.

(** C9: when the value at the popping end of the queue is falsy (the
    empty byte string) the call returns in both modes as it does on an
    empty queue: the value is removed by the pop, and nothing else
    happens: no lookup, no row, no push, no sleep.  The two runs differ
    only in what the pop returned. *)
Theorem falsy_head_ends_loop
        (fuel : nat) (inf : bool) (sl : Q) (st : State)
        (q : list Ident) (x : Ident) :
  truthy (PyStr x) = false ->
  redis_queue st = q ++ [x] ->
  notifications_broadcasting (S fuel) inf sl st
  = (Ok Returned,
     mkState q (telegram_log st) (trace st ++ [EvRpop (Some x)])
             (sends st) (var_is_succesfully st)) /\
  notifications_broadcasting (S fuel) inf sl
    (mkState [] (telegram_log st) (trace st) (sends st)
             (var_is_succesfully st))
  = (Ok Returned,
     mkState [] (telegram_log st) (trace st ++ [EvRpop None])
             (sends st) (var_is_succesfully st)).
Proof.
  intros Hx Hq. split; [|reflexivity].
  rewrite loop_unfold. unfold iteration, bind, rpop.
  rewrite Hq, rpop_list_snoc. cbn [reply_value]. rewrite Hx. reflexivity.
Qed.

(** C10: the delivery is guarded by the truthiness of [telegram_id]:
    [None], the empty string and zero are all falsy, and for a record
    whose [telegram_id] is falsy no delivery is attempted and one row with
    success false is written, as for a missing destination. *)
Theorem falsy_destination_not_delivered
        (inf : bool) (sl : Q) (st : State) (q : list Ident) (id : Ident)
        (n : NotificationData) :
  redis_queue st = q ++ [id] ->
  truthy (PyStr id) = true ->
  notification_table id = Some n ->
  truthy (telegram_id n) = false ->
  (truthy PyNone = false /\ truthy (PyStr "") = false /\
   truthy (PyInt 0) = false) /\
  iteration inf sl st
  = (Ok (if inf then FlowNext else FlowBreak),
     mkState q
             (telegram_log st ++ [mkTelegramLog id false (rendered_text n)])
             (trace st
              ++ [EvRpop (Some id); EvGetObject id;
                  EvWriteToDb (mkTelegramLog id false (rendered_text n))]
              ++ (if inf then [EvSleep sl] else []))
             (sends st) false).
Proof.
  intros Hq Hid Hrec Hf. split; [repeat split|].
  rewrite (iteration_not_deliverable inf sl st q id n Hq Hid Hrec Hf).
  unfold after_body, popped. cbn [trace telegram_log].
  rewrite <- app_assoc. reflexivity.
Qed.

(** ** Whole runs *)

(** *** The iteration on any queue *)

Lemma queue_cases (l : list Ident) : l = [] \/ exists q x, l = q ++ [x].
Proof.
  induction l as [|x l _] using rev_ind; [left; reflexivity|].
  right. exists l, x. reflexivity.
Qed.

Lemma iteration_empty (inf : bool) (sl : Q) (st : State) :
  redis_queue st = [] ->
  iteration inf sl st
  = (Ok FlowExit,
     mkState [] (telegram_log st) (trace st ++ [EvRpop None])
             (sends st) (var_is_succesfully st)).
Proof.
  intros Hq. unfold iteration, bind, rpop. rewrite Hq. reflexivity.
Qed.

Lemma iteration_falsy (inf : bool) (sl : Q) (st : State)
      (q : list Ident) (x : Ident) :
  redis_queue st = q ++ [x] ->
  truthy (PyStr x) = false ->
  iteration inf sl st
  = (Ok FlowExit,
     mkState q (telegram_log st) (trace st ++ [EvRpop (Some x)])
             (sends st) (var_is_succesfully st)).
Proof.
  intros Hq Hx. unfold iteration, bind, rpop.
  rewrite Hq, rpop_list_snoc. cbn [reply_value]. rewrite Hx. reflexivity.
Qed.

Lemma iteration_stale (inf : bool) (sl : Q) (st : State)
      (q : list Ident) (id : Ident) :
  redis_queue st = q ++ [id] ->
  truthy (PyStr id) = true ->
  notification_table id = None ->
  iteration inf sl st
  = (Ok FlowContinue,
     mkState q (telegram_log st) (trace st ++ skip_events id)
             (sends st) (var_is_succesfully st)).
Proof.
  intros Hq Hid Hnone.
  rewrite (iteration_popped inf sl st q id Hq Hid).
  rewrite (body_stale inf sl _ id Hnone).
  unfold emit, popped, skip_events.
  cbn [redis_queue telegram_log trace sends var_is_succesfully].
  rewrite <- app_assoc. reflexivity.
Qed.

(** *** Bookkeeping over a trace *)

Lemma written_app (l1 l2 : list Event) :
  written (l1 ++ l2) = written l1 ++ written l2.
Proof.
  induction l1 as [|[] l1 IH]; cbn; rewrite ?IH; reflexivity.
Qed.

Lemma accounted_nil : accounted [].
Proof.
  unfold accounted. cbn. repeat split; try lia; constructor.
Qed.

Lemma accounted_app (l1 l2 : list Event) :
  accounted l1 -> accounted l2 -> accounted (l1 ++ l2).
Proof.
  intros (A1 & A2 & A3 & A4 & A5) (B1 & B2 & B3 & B4 & B5).
  unfold accounted. rewrite !count_events_app, written_app, length_app.
  repeat split; try lia; apply Forall_app; split; assumption.
Qed.

Lemma advances_nil (st : State) : advances st st [].
Proof.
  unfold advances. cbn. rewrite !app_nil_r. repeat split; lia.
Qed.

Lemma advances_app (st1 st2 st3 : State) (l1 l2 : list Event) :
  advances st1 st2 l1 -> advances st2 st3 l2 -> advances st1 st3 (l1 ++ l2).
Proof.
  intros (A1 & A2 & A3 & A4) (B1 & B2 & B3 & B4).
  unfold advances. rewrite !count_events_app, written_app.
  repeat split.
  - rewrite B1, A1, app_assoc. reflexivity.
  - rewrite B2, A2, app_assoc. reflexivity.
  - lia.
  - lia.
Qed.

(** *** One iteration, then the loop *)

Lemma after_body_advances (inf : bool) (sl : Q) (st : State)
      (q q' : list Ident) (id : Ident) (evs : list Event) (k : nat) (b : bool) :
  redis_queue st = q ++ [id] ->
  k = (sends st + count_events is_send evs)%nat ->
  List.length q' = (List.length q + count_events is_lpush evs)%nat ->
  count_events is_take evs = 0%nat ->
  advances st
           (snd (after_body inf sl (popped st q id) q' (written evs) evs k b))
           ([EvRpop (Some id)] ++ evs ++ (if inf then [EvSleep sl] else [])).
Proof.
  intros Hq Hk Hlen Htake.
  unfold advances, after_body, popped.
  cbn [snd trace telegram_log sends redis_queue].
  rewrite Hq, !length_app, !count_events_app, !written_app, Htake, Hlen, Hk.
  rewrite <- app_assoc.
  destruct inf; cbn; rewrite ?app_nil_r; repeat split; lia.
Qed.

Ltac accounted_list Hrec :=
  unfold accounted;
  match goal with
  | |- context [if ?b then _ else _] => destruct b
  | _ => idtac
  end;
  cbn -[rendered_text]; repeat split; try lia;
  repeat (apply Forall_cons || apply Forall_nil);
  cbn -[rendered_text]; try exact I;
  try (eexists; split; [exact Hrec | reflexivity]);
  try (split; [assumption
              | do 2 eexists; split; [exact Hrec | split; reflexivity]]).

Ltac after_body_case Hq Hrec :=
  match goal with
  | |- context [after_body ?inf ?sl (popped _ _ ?id) _ _ ?e _ _] =>
      exists ([EvRpop (Some id)] ++ e ++ (if inf then [EvSleep sl] else []));
      split;
      [ apply (after_body_advances inf sl _ _ _ id e _ _ Hq);
        cbn; rewrite ?Nat.add_0_r; lia
      | accounted_list Hrec ]
  end.

Lemma iteration_advances (inf : bool) (sl : Q) (st : State) :
  exists evs, advances st (snd (iteration inf sl st)) evs /\ accounted evs.
Proof.
  destruct (queue_cases (redis_queue st)) as [Hq | (q & id & Hq)].
  { rewrite (iteration_empty inf sl st Hq). exists [EvRpop None].
    split; [|accounted_list Hq].
    unfold advances. cbn. rewrite Hq, ?app_nil_r. repeat split; lia. }
  destruct (truthy (PyStr id)) eqn:Hid.
  2:{ rewrite (iteration_falsy inf sl st q id Hq Hid).
      exists [EvRpop (Some id)].
      split; [|accounted_list Hq].
      unfold advances. cbn. rewrite Hq, length_app, ?app_nil_r. cbn.
      repeat split; lia. }
  destruct (notification_table id) as [n|] eqn:Hrec.
  2:{ rewrite (iteration_stale inf sl st q id Hq Hid Hrec).
      exists (skip_events id).
      split; [|accounted_list Hq].
      unfold advances. cbn. rewrite Hq, length_app, ?app_nil_r. cbn.
      repeat split; lia. }
  destruct (truthy (telegram_id n)) eqn:Ht.
  2:{ rewrite (iteration_not_deliverable inf sl st q id n Hq Hid Hrec Ht).
      after_body_case Hq Hrec. }
  destruct (telegram (sends st) (telegram_id n) (rendered_text n))
    as [|[d| |]] eqn:Hd.
  - rewrite (iteration_delivered inf sl st q id n Hq Hid Hrec Ht Hd).
    after_body_case Hq Hrec.
  - rewrite (iteration_throttled inf sl st q id n Hq Hid Hrec d Ht Hd).
    after_body_case Hq Hrec.
  - rewrite (iteration_api_error inf sl st q id n Hq Hid Hrec Ht Hd).
    after_body_case Hq Hrec.
  - rewrite (iteration_unexpected inf sl st q id n Hq Hid Hrec Ht Hd).
    eexists. split.
    + unfold advances. cbn [snd trace telegram_log sends redis_queue].
      split; [reflexivity|].
      rewrite Hq, length_app. cbn -[rendered_text]. repeat split; lia.
    + accounted_list Hrec.
Qed.

Lemma loop_advances (fuel : nat) (inf : bool) (sl : Q) (st : State) :
  exists evs,
    advances st (snd (notifications_broadcasting fuel inf sl st)) evs /\
    accounted evs.
Proof.
  revert st. induction fuel as [|fuel IH]; intros st.
  - exists []. split; [apply advances_nil | apply accounted_nil].
  - rewrite loop_unfold.
    destruct (iteration_advances inf sl st) as (evs & Hadv & Hacc).
    destruct (iteration inf sl st) as [[[]|e] st1]; cbn [snd] in *;
      try (exists evs; split; assumption).
    + destruct (IH st1) as (evs' & Hadv' & Hacc').
      exists (evs ++ evs'). split.
      * exact (advances_app _ _ _ _ _ Hadv Hadv').
      * exact (accounted_app _ _ Hacc Hacc').
    + destruct (IH st1) as (evs' & Hadv' & Hacc').
      exists (evs ++ evs'). split.
      * exact (advances_app _ _ _ _ _ Hadv Hadv').
      * exact (accounted_app _ _ Hacc Hacc').
Qed.

(** How an iteration can end, and what it leaves in the queue. *)
Lemma iteration_cases (inf : bool) (sl : Q) (st : State) :
  let r := fst (iteration inf sl st) in
  let st' := snd (iteration inf sl st) in
  (redis_queue st = [] /\ r = Ok FlowExit /\ redis_queue st' = []) \/
  exists q id,
    redis_queue st = q ++ [id] /\
    ((truthy (PyStr id) = false /\ r = Ok FlowExit /\ redis_queue st' = q) \/
     (r = Ok FlowContinue /\ redis_queue st' = q) \/
     (r = Ok (if inf then FlowNext else FlowBreak) /\ redis_queue st' = q) \/
     (r = Ok (if inf then FlowNext else FlowBreak) /\
      redis_queue st' = id :: q /\
      exists k c t d, telegram k c t = Failed (TelegramRetryAfter d)) \/
     (r = Raise OtherException /\ redis_queue st' = q /\
      exists k c t, telegram k c t = Failed OtherException)).
Proof.
  cbv zeta.
  destruct (queue_cases (redis_queue st)) as [Hq | (q & id & Hq)].
  { left. rewrite (iteration_empty inf sl st Hq). repeat split. exact Hq. }
  right. exists q, id. split; [exact Hq|].
  destruct (truthy (PyStr id)) eqn:Hid.
  2:{ rewrite (iteration_falsy inf sl st q id Hq Hid). left.
      repeat split. }
  destruct (notification_table id) as [n|] eqn:Hrec.
  2:{ rewrite (iteration_stale inf sl st q id Hq Hid Hrec).
      right; left. split; reflexivity. }
  destruct (truthy (telegram_id n)) eqn:Ht.
  2:{ rewrite (iteration_not_deliverable inf sl st q id n Hq Hid Hrec Ht).
      right; right; left. split; reflexivity. }
  destruct (telegram (sends st) (telegram_id n) (rendered_text n))
    as [|[d| |]] eqn:Hd.
  - rewrite (iteration_delivered inf sl st q id n Hq Hid Hrec Ht Hd).
    right; right; left. split; reflexivity.
  - rewrite (iteration_throttled inf sl st q id n Hq Hid Hrec d Ht Hd).
    right; right; right; left. split; [reflexivity|]. split; [reflexivity|].
    exists (sends st), (telegram_id n), (rendered_text n), d. exact Hd.
  - rewrite (iteration_api_error inf sl st q id n Hq Hid Hrec Ht Hd).
    right; right; left. split; reflexivity.
  - rewrite (iteration_unexpected inf sl st q id n Hq Hid Hrec Ht Hd).
    right; right; right; right. split; [reflexivity|]. split; [reflexivity|].
    exists (sends st), (telegram_id n), (rendered_text n). exact Hd.
Qed.

(** Unless a Continuous run meets a retry-after, a run ends within one
    evaluation of the condition per queued identifier, plus one. *)
Lemma loop_ends (inf : bool) (sl : Q) :
  (inf = false \/
   forall k c t d, telegram k c t <> Failed (TelegramRetryAfter d)) ->
  forall (fuel : nat) (st : State),
    (List.length (redis_queue st) < fuel)%nat ->
    fst (notifications_broadcasting fuel inf sl st) = Ok Returned \/
    fst (notifications_broadcasting fuel inf sl st) = Raise OtherException.
Proof.
  intros Hmode. induction fuel as [|fuel IH]; intros st Hlen; [lia|].
  rewrite loop_unfold.
  pose proof (iteration_cases inf sl st) as Hc. cbv zeta in Hc.
  destruct (iteration inf sl st) as [r st1]. cbn [fst snd] in Hc.
  destruct Hc as [(Hq & Hr & _) | (q & id & Hq & Hc)].
  { subst r. left. reflexivity. }
  rewrite Hq, length_app in Hlen. cbn in Hlen.
  destruct Hc as [(_ & Hr & Hq1) | [(Hr & Hq1) | [(Hr & Hq1)
                 | [(Hr & Hq1 & Hth) | (Hr & Hq1 & _)]]]]; subst r.
  - left. reflexivity.
  - apply IH. rewrite Hq1. lia.
  - destruct inf; [|left; reflexivity].
    apply IH. rewrite Hq1. lia.
  - destruct Hmode as [Hinf | Hno].
    + subst inf. left. reflexivity.
    + destruct Hth as (k & c & t & d & Hth). exfalso. exact (Hno k c t d Hth).
  - right. reflexivity.
Qed.

Lemma deliverable_inv (id : Ident) :
  deliverable id = true ->
  truthy (PyStr id) = true /\
  exists n, notification_table id = Some n /\ truthy (telegram_id n) = true.
Proof.
  unfold deliverable. intros H. apply andb_prop in H. destruct H as [H1 H2].
  split; [exact H1|].
  destruct (notification_table id) as [n|]; [|discriminate].
  exists n. split; [reflexivity | exact H2].
Qed.

Lemma stale_inv (id : Ident) :
  stale id = true ->
  truthy (PyStr id) = true /\ notification_table id = None.
Proof.
  unfold stale. intros H. apply andb_prop in H. destruct H as [H1 H2].
  split; [exact H1|].
  destruct (notification_table id); [discriminate | reflexivity].
Qed.


(** ** The module's behaviour beyond one iteration *)


Lemma continuous_drains_delivered_queue_aux (sl : Q) (q : list Ident) :
  (forall k c t, telegram k c t = Delivered) ->
  Forall (fun id => deliverable id = true) q ->
  forall (fuel : nat) (st : State),
    redis_queue st = q ->
    (List.length q < fuel)%nat ->
    let st' := snd (notifications_broadcasting fuel true sl st) in
    fst (notifications_broadcasting fuel true sl st) = Ok Returned /\
    redis_queue st' = [] /\
    telegram_log st' = telegram_log st ++ flat_map (row_for true) (rev q) /\
    sends st' = (sends st + List.length q)%nat.
Proof.
  intros Hdel. cbv zeta.
  induction q as [|id q IH] using rev_ind; intros Hall fuel st Hq Hlen.
  - destruct fuel as [|fuel]; [cbn in Hlen; lia|].
    rewrite loop_unfold, (iteration_empty true sl st Hq).
    cbn. rewrite app_nil_r. repeat split; lia.
  - apply Forall_app in Hall. destruct Hall as [Hall Hid].
    inversion Hid as [|? ? Hid1 _]; subst.
    destruct (deliverable_inv id Hid1) as (Htr & n & Hrec & Ht).
    rewrite length_app in Hlen. cbn in Hlen.
    destruct fuel as [|fuel]; [lia|].
    rewrite loop_unfold.
    rewrite (iteration_delivered true sl st q id n Hq Htr Hrec Ht (Hdel _ _ _)).
    unfold after_body.
    match goal with |- context [notifications_broadcasting fuel true sl ?s] =>
      destruct (IH Hall fuel s eq_refl ltac:(lia)) as (R1 & R2 & R3 & R4)
    end.
    rewrite R1, R2, R3, R4. cbn [telegram_log sends].
    rewrite rev_app_distr, length_app. cbn [rev app flat_map List.length].
    unfold row_for at 2. rewrite Hrec. rewrite <- app_assoc.
    repeat split; lia.
Qed.

(** X2: when every queued identifier is deliverable and the endpoint
    accepts every message, a Continuous run with one unit of fuel per
    identifier plus one returns with the queue empty, one success row per
    identifier in popping order, and one send per identifier. *)
Theorem continuous_drains_delivered_queue (sl : Q) (q : list Ident) :
  (forall k c t, telegram k c t = Delivered) ->
  Forall (fun id => deliverable id = true) q ->
  forall (fuel : nat) (st : State),
    redis_queue st = q ->
    (List.length q < fuel)%nat ->
    let st' := snd (notifications_broadcasting fuel true sl st) in
    fst (notifications_broadcasting fuel true sl st) = Ok Returned /\
    redis_queue st' = [] /\
    telegram_log st' = telegram_log st ++ flat_map (row_for true) (rev q) /\
    sends st' = (sends st + List.length q)%nat.
Proof.
  exact (continuous_drains_delivered_queue_aux sl q).
Qed.


(** X4: a SinglePass call always ends.  With more fuel than queued
    identifiers it returns, or raises the exception of a delivery that
    failed outside the Telegram API errors; it never runs out of fuel. *)
Theorem single_pass_ends (sl : Q) (fuel : nat) (st : State) :
  (List.length (redis_queue st) < fuel)%nat ->
  fst (notifications_broadcasting fuel false sl st) = Ok Returned \/
  fst (notifications_broadcasting fuel false sl st) = Raise OtherException.
Proof.
  apply loop_ends. left. reflexivity.
Qed.

(** X5: a Continuous call ends as well when the endpoint never answers
    with a retry-after: each iteration then shortens the queue, and the
    empty queue ends the loop. *)
Theorem continuous_ends_without_throttle (sl : Q) (fuel : nat) (st : State) :
  (forall k c t d, telegram k c t <> Failed (TelegramRetryAfter d)) ->
  (List.length (redis_queue st) < fuel)%nat ->
  fst (notifications_broadcasting fuel true sl st) = Ok Returned \/
  fst (notifications_broadcasting fuel true sl st) = Raise OtherException.
Proof.
  intros Hno. apply loop_ends. right. exact Hno.
Qed.

(** X6: retries are unbounded.  When the queue is not empty, holds only
    deliverable identifiers, and the endpoint answers every message with a
    retry-after, a Continuous call does not end within any fuel: each
    evaluation of the condition makes one send and puts the identifier
    back, so the queue keeps its content. *)
Theorem throttled_forever_never_returns (sl : Q) :
  (forall k c t, exists d, telegram k c t = Failed (TelegramRetryAfter d)) ->
  forall (fuel : nat) (st : State),
    redis_queue st <> [] ->
    Forall (fun id => deliverable id = true) (redis_queue st) ->
    let st' := snd (notifications_broadcasting fuel true sl st) in
    fst (notifications_broadcasting fuel true sl st) = Ok OutOfFuel /\
    Permutation (redis_queue st') (redis_queue st) /\
    sends st' = (sends st + fuel)%nat.
Proof.
  intros Hth. cbv zeta. induction fuel as [|fuel IH]; intros st Hne Hall.
  - cbn. repeat split; [apply Permutation_refl | lia].
  - destruct (queue_cases (redis_queue st)) as [Hq | (q & id & Hq)];
      [contradiction|].
    rewrite Hq in Hall. apply Forall_app in Hall. destruct Hall as [Hall Hid].
    inversion Hid as [|? ? Hid1 _]; subst.
    destruct (deliverable_inv id Hid1) as (Htr & n & Hrec & Ht).
    destruct (Hth (sends st) (telegram_id n) (rendered_text n)) as [d Hd].
    rewrite loop_unfold.
    rewrite (iteration_throttled true sl st q id n Hq Htr Hrec d Ht Hd).
    unfold after_body.
    match goal with |- context [notifications_broadcasting fuel true sl ?s] =>
      destruct (IH s) as (R1 & R2 & R3)
    end.
    + cbn. discriminate.
    + cbn. constructor; assumption.
    + rewrite R1, R3. cbn [sends redis_queue] in *. repeat split; [|lia].
      rewrite Hq. eapply Permutation_trans; [exact R2|].
      apply Permutation_cons_append.
Qed.

(** X7: an exception of the delivery that is not a Telegram API error
    leaves the loop in both modes.  The row with success false is written
    first; the identifier stays out of the queue. *)
Theorem unexpected_exception_leaves_loop
        (fuel : nat) (inf : bool) (sl : Q) (st : State)
        (q : list Ident) (id : Ident) (n : NotificationData) :
  redis_queue st = q ++ [id] ->
  truthy (PyStr id) = true ->
  notification_table id = Some n ->
  truthy (telegram_id n) = true ->
  telegram (sends st) (telegram_id n) (rendered_text n)
  = Failed OtherException ->
  notifications_broadcasting (S fuel) inf sl st
  = (Raise OtherException,
     mkState q
             (telegram_log st ++ [mkTelegramLog id false (rendered_text n)])
             (trace st
              ++ [EvRpop (Some id); EvGetObject id;
                  EvSendMessage (telegram_id n) (rendered_text n)
                                (Failed OtherException);
                  EvWriteToDb (mkTelegramLog id false (rendered_text n))])
             (S (sends st)) false).
Proof.
  intros Hq Hid Hrec Ht Hd.
  rewrite loop_unfold.
  rewrite (iteration_unexpected inf sl st q id n Hq Hid Hrec Ht Hd).
  reflexivity.
Qed.

(** X8: a stretch of stale identifiers at the popping end is consumed
    whole, in both modes: one evaluation of the condition each, a pop and
    a lookup each, no row, no send, no sleep; the run then goes on with
    what lies behind them. *)
Theorem stale_run_skipped (inf : bool) (sl : Q) (stale_ids : list Ident) :
  Forall (fun id => stale id = true) stale_ids ->
  forall (fuel : nat) (st : State) (q : list Ident),
    redis_queue st = q ++ stale_ids ->
    notifications_broadcasting (List.length stale_ids + fuel) inf sl st
    = notifications_broadcasting fuel inf sl
        (mkState q (telegram_log st)
                 (trace st ++ flat_map skip_events (rev stale_ids))
                 (sends st) (var_is_succesfully st)).
Proof.
  induction stale_ids as [|x l IH] using rev_ind; intros Hall fuel st q Hq.
  - cbn. rewrite !app_nil_r in *. destruct st; cbn in *. subst. reflexivity.
  - apply Forall_app in Hall. destruct Hall as [Hall Hx].
    inversion Hx as [|? ? Hx1 _]; subst.
    destruct (stale_inv x Hx1) as [Htr Hnone].
    rewrite length_app. cbn [List.length].
    replace (List.length l + 1 + fuel)%nat with (S (List.length l + fuel))
      by lia.
    rewrite app_assoc in Hq.
    rewrite loop_unfold, (iteration_stale inf sl st (q ++ l) x Hq Htr Hnone).
    rewrite (IH Hall fuel
               (mkState (q ++ l) (telegram_log st) (trace st ++ skip_events x)
                        (sends st) (var_is_succesfully st)) q eq_refl).
    cbn [telegram_log trace sends var_is_succesfully].
    rewrite rev_app_distr. cbn [rev app flat_map].
    rewrite <- app_assoc. reflexivity.
Qed.

(** X14: a retry that succeeds.  With one deliverable identifier queued,
    a first answer of retry-after [d] and a second answer of delivered, a
    Continuous run writes a failure row and then a success row for the
    identifier, sleeps [d] before the requeue and the poll interval after
    each attempt, and returns on the third pop, the queue being empty. *)
Theorem throttled_then_delivered_on_retry
        (fuel : nat) (sl : Q) (st : State) (id : Ident)
        (n : NotificationData) (d : Q) :
  redis_queue st = [id] ->
  truthy (PyStr id) = true ->
  notification_table id = Some n ->
  truthy (telegram_id n) = true ->
  telegram (sends st) (telegram_id n) (rendered_text n)
  = Failed (TelegramRetryAfter d) ->
  telegram (S (sends st)) (telegram_id n) (rendered_text n) = Delivered ->
  notifications_broadcasting (S (S (S fuel))) true sl st
  = (Ok Returned,
     mkState []
             (telegram_log st
              ++ [mkTelegramLog id false (rendered_text n);
                  mkTelegramLog id true (rendered_text n)])
             (trace st
              ++ [EvRpop (Some id); EvGetObject id;
                  EvSendMessage (telegram_id n) (rendered_text n)
                                (Failed (TelegramRetryAfter d));
                  EvSleep d; EvLpush id;
                  EvWriteToDb (mkTelegramLog id false (rendered_text n));
                  EvSleep sl;
                  EvRpop (Some id); EvGetObject id;
                  EvSendMessage (telegram_id n) (rendered_text n) Delivered;
                  EvWriteToDb (mkTelegramLog id true (rendered_text n));
                  EvSleep sl;
                  EvRpop None])
             (S (S (sends st))) true).
Proof.
  intros Hq Hid Hrec Ht Hd1 Hd2.
  rewrite loop_unfold.
  rewrite (iteration_throttled true sl st [] id n Hq Hid Hrec d Ht Hd1).
  unfold after_body.
  rewrite loop_unfold.
  match goal with |- context [iteration true sl ?s] =>
    rewrite (iteration_delivered true sl s [] id n eq_refl Hid Hrec Ht Hd2)
  end.
  unfold after_body.
  rewrite loop_unfold.
  match goal with |- context [iteration true sl ?s] =>
    rewrite (iteration_empty true sl s eq_refl)
  end.
  unfold popped.
  cbn [redis_queue telegram_log trace sends var_is_succesfully].
  rewrite <- !app_assoc. reflexivity.
Qed.

(** X15: what a Continuous run leaves.  When every queued identifier is
    truthy and the endpoint answers each message with delivered or with a
    Telegram API error other than retry-after, the run returns with the
    queue empty, whether the identifiers are stale, without destination,
    delivered or refused. *)
Theorem continuous_consumes_queue (sl : Q) :
  (forall k c t, telegram k c t = Delivered \/
                 telegram k c t = Failed TelegramAPIError) ->
  forall (fuel : nat) (st : State),
    Forall (fun id => truthy (PyStr id) = true) (redis_queue st) ->
    (List.length (redis_queue st) < fuel)%nat ->
    fst (notifications_broadcasting fuel true sl st) = Ok Returned /\
    redis_queue (snd (notifications_broadcasting fuel true sl st)) = [].
Proof.
  intros Hok. induction fuel as [|fuel IH]; intros st Hall Hlen; [lia|].
  rewrite loop_unfold.
  pose proof (iteration_cases true sl st) as Hc. cbv zeta in Hc.
  destruct (iteration true sl st) as [r st1]. cbn [fst snd] in Hc.
  destruct Hc as [(Hq & Hr & Hq1) | (q & id & Hq & Hc)].
  { subst r. split; [reflexivity | exact Hq1]. }
  rewrite Hq in Hall, Hlen. rewrite length_app in Hlen. cbn in Hlen.
  apply Forall_app in Hall. destruct Hall as [Hall Hid].
  inversion Hid as [|? ? Hid1 _]; subst.
  destruct Hc as [(Hf & _) | [(Hr & Hq1) | [(Hr & Hq1)
                 | [(_ & _ & (k & c & t & d & Hth))
                   | (_ & _ & (k & c & t & Hex))]]]].
  - rewrite Hid1 in Hf. discriminate.
  - subst r. apply IH; rewrite Hq1; [exact Hall | lia].
  - subst r. apply IH; rewrite Hq1; [exact Hall | lia].
  - destruct (Hok k c t) as [H | H]; rewrite H in Hth; discriminate.
  - destruct (Hok k c t) as [H | H]; rewrite H in Hex; discriminate.
Qed.

(** X9: no run makes the queue longer: whatever the mode, the fuel, the
    table and the endpoint, and however the run ends, the queue it leaves
    is at most as long as the one it found. *)
Theorem queue_never_grows (fuel : nat) (inf : bool) (sl : Q) (st : State) :
  (List.length (redis_queue (snd (notifications_broadcasting fuel inf sl st)))
   <= List.length (redis_queue st))%nat.
Proof.
  destruct (loop_advances fuel inf sl st)
    as (evs & (_ & _ & _ & Hlen) & (P1 & P2 & P3 & _)).
  lia.
Qed.

(** X10: the audit trail.  Over any run, however it ends, the log only
    gains rows, namely those the traced calls wrote; every [send_message]
    call has its row, every row its pop, and every requeue its send. *)
Theorem every_send_is_logged (fuel : nat) (inf : bool) (sl : Q) (st : State) :
  let st' := snd (notifications_broadcasting fuel inf sl st) in
  exists evs,
    trace st' = trace st ++ evs /\
    telegram_log st' = telegram_log st ++ written evs /\
    sends st' = (sends st + count_events is_send evs)%nat /\
    (count_events is_lpush evs <= count_events is_send evs)%nat /\
    (count_events is_send evs <= List.length (written evs))%nat /\
    (List.length (written evs) <= count_events is_take evs)%nat.
Proof.
  cbv zeta.
  destruct (loop_advances fuel inf sl st)
    as (evs & (H1 & H2 & H3 & _) & (P1 & P2 & P3 & _)).
  exists evs. repeat split; assumption.
Qed.

(** X11: over any run, [send_message] is only called for a record the
    table holds: to that record's [telegram_id], which is truthy, and with
    the text rendered from that record. *)
Theorem sends_only_for_records (fuel : nat) (inf : bool) (sl : Q) (st : State) :
  exists evs,
    trace (snd (notifications_broadcasting fuel inf sl st)) = trace st ++ evs /\
    Forall send_of_record evs.
Proof.
  destruct (loop_advances fuel inf sl st)
    as (evs & (H1 & _) & (_ & _ & _ & P4 & _)).
  exists evs. split; assumption.
Qed.

(** X12: over any run, every row added to the log belongs to an
    identifier that has a record, and its message is the text rendered
    from that record. *)
Theorem rows_only_for_records (fuel : nat) (inf : bool) (sl : Q) (st : State) :
  exists rows,
    telegram_log (snd (notifications_broadcasting fuel inf sl st))
    = telegram_log st ++ rows /\
    Forall row_of_record rows.
Proof.
  destruct (loop_advances fuel inf sl st)
    as (evs & (_ & H2 & _) & (_ & _ & _ & _ & P5)).
  exists (written evs). split; assumption.
Qed.

End Dispatch.

(** ** The template, beyond one record *)

(** X13: formatting [DEFAULT_MESSAGE_TEMPLATE] with a wallet identifier
    never fails, and the text tells the wallet identifier: two wallet
    identifiers with the same text are equal. *)
Theorem template_text_identifies_wallet (w1 w2 : string) :
  format DEFAULT_MESSAGE_TEMPLATE [("wallet_id", w1)] <> None /\
  (format DEFAULT_MESSAGE_TEMPLATE [("wallet_id", w1)]
   = format DEFAULT_MESSAGE_TEMPLATE [("wallet_id", w2)] -> w1 = w2).
Proof.
  rewrite !format_default. split; [discriminate|].
  intros H. injection H as H. exact H.
Qed.

(** * Concrete runs *)

(** C2, as stated, fails on the queue holding ["stale"] before
    ["id-alice"], ["stale"] having no record.  In SinglePass mode the call
    returns only after two pops; in Continuous mode the iteration on
    ["stale"] ends in [continue] and does not end with the sleep. *)
Lemma stale_identifier_neither_breaks_nor_sleeps :
  let st := initial ["id-alice"; "stale"] in
  let single :=
    notifications_broadcasting sample_table (always Delivered) 2 false (1#20) st in
  let continuous :=
    iteration sample_table (always Delivered) true (1#20) st in
  fst single = Ok Returned /\
  trace (snd single)
  = [EvRpop (Some "stale"); EvGetObject "stale";
     EvRpop (Some "id-alice"); EvGetObject "id-alice";
     EvSendMessage (PyStr "424242") (rendered_text alice) Delivered;
     EvWriteToDb (mkTelegramLog "id-alice" true (rendered_text alice))] /\
  ~ (count_events is_rpop (trace (snd single)) <= 1)%nat /\
  fst continuous = Ok FlowContinue /\
  ~ (exists evs, trace (snd continuous) = trace st ++ evs ++ [EvSleep (1#20)]).
Proof.
  cbv zeta. split; [reflexivity|]. split; [reflexivity|].
  split; [vm_compute; lia|]. split; [reflexivity|].
  intros [evs H]. apply (f_equal (@rev Event)) in H.
  cbn [initial trace app] in H. rewrite rev_app_distr in H.
  vm_compute in H. discriminate H.
Qed.

(** The amended C2 at work: in SinglePass mode the iteration on
    ["id-alice"] ends in [break]. *)
Lemma resolved_iteration_breaks_or_sleeps_witness :
  fst (iteration sample_table (always Delivered) false (1#20)
                 (initial ["id-alice"])) = Ok FlowBreak.
Proof.
  destruct (resolved_iteration_breaks_or_sleeps
              sample_table (always Delivered) (1#20)
              (initial ["id-alice"]) [] "id-alice" eq_refl eq_refl)
    as [Hres _].
  destruct (Hres alice eq_refl) as [[Hbreak _] _].
  - intros _ H. discriminate H.
  - exact Hbreak.
Defined.

(** C3 at work: ["id-alice"] is throttled for 2 seconds and comes back
    behind ["id-nobody"]. *)
Lemma throttled_identifier_requeued_witness :
  redis_queue
    (snd (iteration sample_table (always (Failed (TelegramRetryAfter 2)))
                    true (1#20) (initial ["id-nobody"; "id-alice"])))
  = ["id-alice"; "id-nobody"].
Proof.
  pose proof (throttled_identifier_requeued
                sample_table (always (Failed (TelegramRetryAfter 2)))
                true (1#20) (initial ["id-nobody"; "id-alice"])
                ["id-nobody"] "id-alice" alice 2
                eq_refl eq_refl eq_refl eq_refl eq_refl) as H.
  cbv zeta in H. destruct H as (_ & _ & _ & _ & Hqueue & _).
  exact Hqueue.
Defined.

(** C4 at work: ["stale"] has no record. *)
Lemma stale_identifier_dropped_witness :
  iteration sample_table (always Delivered) false (1#20)
            (initial ["id-alice"; "stale"])
  = (Ok FlowContinue,
     mkState ["id-alice"] [] [EvRpop (Some "stale"); EvGetObject "stale"]
             0 false).
Proof.
  exact (proj1 (stale_identifier_dropped
                  sample_table (always Delivered) false (1#20)
                  (initial ["id-alice"; "stale"]) ["id-alice"] "stale"
                  eq_refl eq_refl eq_refl)).
Defined.

(** C5 at work: the row is written although the delivery raised an
    exception that is not caught. *)
Lemma resolved_identifier_logged_once_witness :
  telegram_log
    (snd (iteration sample_table (always (Failed OtherException)) true (1#20)
                    (initial ["id-alice"])))
  = [mkTelegramLog "id-alice" false (rendered_text alice)].
Proof.
  exact (proj1 (resolved_identifier_logged_once
                  sample_table (always (Failed OtherException)) true (1#20)
                  (initial ["id-alice"]) [] "id-alice" eq_refl eq_refl)).
Defined.

(** C6 at work: the SinglePass call returns normally. *)
Lemma api_error_swallowed_witness :
  notifications_broadcasting sample_table (always (Failed TelegramAPIError))
                             1 false (1#20) (initial ["id-alice"])
  = (Ok Returned,
     snd (iteration sample_table (always (Failed TelegramAPIError))
                    false (1#20) (initial ["id-alice"]))).
Proof.
  pose proof (api_error_swallowed
                sample_table (always (Failed TelegramAPIError))
                false (1#20) (initial ["id-alice"]) [] "id-alice" alice
                eq_refl eq_refl eq_refl eq_refl eq_refl) as H.
  cbv zeta in H. destruct H as (_ & _ & _ & _ & Hloop).
  exact (Hloop 0%nat).
Defined.

(** C7 at work: ["id-nobody"] has a record without [telegram_id]. *)
Lemma record_without_destination_witness :
  iteration sample_table (always Delivered) false (1#20)
            (initial ["id-nobody"])
  = (Ok FlowBreak,
     mkState [] [mkTelegramLog "id-nobody" false (rendered_text nobody)]
             [EvRpop (Some "id-nobody"); EvGetObject "id-nobody";
              EvWriteToDb (mkTelegramLog "id-nobody" false (rendered_text nobody))]
             0 false).
Proof.
  exact (record_without_destination
           sample_table (always Delivered) false (1#20)
           (initial ["id-nobody"]) [] "id-nobody" nobody
           eq_refl eq_refl eq_refl eq_refl).
Defined.

(** C8 at work. *)
Lemma delivered_identifier_logged_success_witness :
  exists text : string,
    format DEFAULT_MESSAGE_TEMPLATE [("wallet_id", "0xA11CE")] = Some text /\
    telegram_log
      (snd (iteration sample_table (always Delivered) true (1#20)
                      (initial ["id-alice"])))
    = [mkTelegramLog "id-alice" true text].
Proof.
  pose proof (delivered_identifier_logged_success
                sample_table (always Delivered) true (1#20)
                (initial ["id-alice"]) [] "id-alice" alice
                eq_refl eq_refl eq_refl eq_refl eq_refl) as H.
  cbv zeta in H. destruct H as (text & Hfmt & _ & _ & Hlog & _).
  exists text. split; [exact Hfmt | exact Hlog].
Defined.

(** C9 at work: an empty byte string ahead of ["id-alice"] ends a
    Continuous call. *)
Lemma falsy_head_ends_loop_witness :
  notifications_broadcasting sample_table (always Delivered) 1 true (1#20)
                             (initial ["id-alice"; ""])
  = (Ok Returned, mkState ["id-alice"] [] [EvRpop (Some "")] 0 false).
Proof.
  exact (proj1 (falsy_head_ends_loop
                  sample_table (always Delivered) 0 true (1#20)
                  (initial ["id-alice"; ""]) ["id-alice"] ""
                  eq_refl eq_refl)).
Defined.

(** C10 at work: a [telegram_id] of 0. *)
Lemma falsy_destination_not_delivered_witness :
  fst (iteration (fun _ => Some (mkNotificationData "0xC0FFEE" (PyInt 0)))
                 (always Delivered) true (1#20) (initial ["id-zero"]))
  = Ok FlowNext /\
  sends (snd (iteration (fun _ => Some (mkNotificationData "0xC0FFEE" (PyInt 0)))
                        (always Delivered) true (1#20) (initial ["id-zero"])))
  = 0%nat.
Proof.
  pose proof (falsy_destination_not_delivered
                (fun _ => Some (mkNotificationData "0xC0FFEE" (PyInt 0)))
                (always Delivered) true (1#20) (initial ["id-zero"])
                [] "id-zero" (mkNotificationData "0xC0FFEE" (PyInt 0))
                eq_refl eq_refl eq_refl eq_refl) as [_ H].
  rewrite H. split; reflexivity.
Defined.

(** * Concrete runs of the whole loop *)


(** X2 at work. *)
Lemma continuous_drains_delivered_queue_witness :
  redis_queue
    (snd (notifications_broadcasting sample_table (always Delivered) 3 true
            (1#20) (initial ["id-alice"; "id-alice"]))) = [].
Proof.
  assert (Hall : Forall (fun id => deliverable sample_table id = true)
                        ["id-alice"; "id-alice"]) by (repeat constructor).
  destruct (continuous_drains_delivered_queue
              sample_table (always Delivered) (1#20) ["id-alice"; "id-alice"]
              (fun _ _ _ => eq_refl) Hall
              3%nat (initial ["id-alice"; "id-alice"]) eq_refl)
    as (_ & H & _).
  - cbn. lia.
  - exact H.
Defined.


(** X4 at work: two queued identifiers, three units of fuel. *)
Lemma single_pass_ends_witness :
  fst (notifications_broadcasting sample_table
         (always (Failed (TelegramRetryAfter 2))) 3 false (1#20)
         (initial ["id-alice"; "stale"])) = Ok Returned \/
  fst (notifications_broadcasting sample_table
         (always (Failed (TelegramRetryAfter 2))) 3 false (1#20)
         (initial ["id-alice"; "stale"])) = Raise OtherException.
Proof.
  apply (single_pass_ends sample_table
           (always (Failed (TelegramRetryAfter 2))) (1#20) 3
           (initial ["id-alice"; "stale"])).
  cbn. lia.
Defined.

(** X5 at work. *)
Lemma continuous_ends_without_throttle_witness :
  fst (notifications_broadcasting sample_table (always (Failed TelegramAPIError))
         3 true (1#20) (initial ["id-alice"; "id-nobody"])) = Ok Returned \/
  fst (notifications_broadcasting sample_table (always (Failed TelegramAPIError))
         3 true (1#20) (initial ["id-alice"; "id-nobody"]))
  = Raise OtherException.
Proof.
  apply (continuous_ends_without_throttle sample_table
           (always (Failed TelegramAPIError)) (1#20) 3
           (initial ["id-alice"; "id-nobody"])).
  - intros k c t d H. discriminate H.
  - cbn. lia.
Defined.

(** X6 at work: after 40 evaluations of the condition the run is still
    going. *)
Lemma throttled_forever_never_returns_witness :
  fst (notifications_broadcasting sample_table
         (always (Failed (TelegramRetryAfter 2))) 40 true (1#20)
         (initial ["id-alice"])) = Ok OutOfFuel.
Proof.
  destruct (throttled_forever_never_returns sample_table
              (always (Failed (TelegramRetryAfter 2))) (1#20)
              (fun _ _ _ => ex_intro _ 2 eq_refl)
              40%nat (initial ["id-alice"]))
    as (H & _).
  - discriminate.
  - repeat constructor.
  - exact H.
Defined.

(** X7 at work, in Continuous mode. *)
Lemma unexpected_exception_leaves_loop_witness :
  fst (notifications_broadcasting sample_table (always (Failed OtherException))
         5 true (1#20) (initial ["id-nobody"; "id-alice"]))
  = Raise OtherException.
Proof.
  rewrite (unexpected_exception_leaves_loop
             sample_table (always (Failed OtherException)) 4 true (1#20)
             (initial ["id-nobody"; "id-alice"]) ["id-nobody"] "id-alice" alice
             eq_refl eq_refl eq_refl eq_refl eq_refl).
  reflexivity.
Defined.

(** X8 at work: two stale identifiers ahead of ["id-alice"]. *)
Lemma stale_run_skipped_witness :
  notifications_broadcasting sample_table (always Delivered) 3 false (1#20)
    (initial ["id-alice"; "old-2"; "old-1"])
  = notifications_broadcasting sample_table (always Delivered) 1 false (1#20)
      (mkState ["id-alice"] []
               [EvRpop (Some "old-1"); EvGetObject "old-1";
                EvRpop (Some "old-2"); EvGetObject "old-2"] 0 false).
Proof.
  assert (Hall : Forall (fun id => stale sample_table id = true)
                        ["old-2"; "old-1"]) by (repeat constructor).
  exact (stale_run_skipped sample_table (always Delivered) false (1#20)
           ["old-2"; "old-1"] Hall
           1%nat (initial ["id-alice"; "old-2"; "old-1"]) ["id-alice"] eq_refl).
Defined.

(** X14 at work: the endpoint throttles its first call only. *)
Lemma throttled_then_delivered_on_retry_witness :
  telegram_log
    (snd (notifications_broadcasting sample_table
            (fun k _ _ => match k with
                          | O => Failed (TelegramRetryAfter 2)
                          | S _ => Delivered
                          end)
            3 true (1#20) (initial ["id-alice"])))
  = [mkTelegramLog "id-alice" false (rendered_text alice);
     mkTelegramLog "id-alice" true (rendered_text alice)].
Proof.
  rewrite (throttled_then_delivered_on_retry sample_table
             (fun k _ _ => match k with
                           | O => Failed (TelegramRetryAfter 2)
                           | S _ => Delivered
                           end)
             0 (1#20) (initial ["id-alice"]) "id-alice" alice 2
             eq_refl eq_refl eq_refl eq_refl eq_refl eq_refl).
  reflexivity.
Defined.

(** X15 at work: a stale identifier, one without destination and one the
    endpoint refuses. *)
Lemma continuous_consumes_queue_witness :
  redis_queue
    (snd (notifications_broadcasting sample_table
            (always (Failed TelegramAPIError)) 4 true (1#20)
            (initial ["id-alice"; "id-nobody"; "stale"]))) = [].
Proof.
  refine (proj2 (continuous_consumes_queue sample_table
                   (always (Failed TelegramAPIError)) (1#20)
                   (fun _ _ _ => or_intror eq_refl)
                   4%nat (initial ["id-alice"; "id-nobody"; "stale"]) _ _)).
  - repeat constructor.
  - cbn. lia.
Defined.
